(** * remove-bg.py: the background-removal filter driver

    A shallow embedding of [scripts/remove-bg.py] and the properties of its
    driver: what reaches the output stream and the diagnostic stream, in
    which order, and with which exit status.

    The script is a straight line of four effects (read stdin, call
    [rembg.remove], write stdout, write stderr) with one [if] and one
    [try ... except Exception].  It is embedded in a small monad that
    threads the trace of effects and carries Python's two ways of leaving a
    block early: an [Exception] and the [SystemExit] raised by [sys.exit].
    Around the script stands the interpreter, which flushes the output
    stream when the script is over and sets the exit status. *)

From Stdlib Require Import List String Ascii ZArith Bool Lia DecimalString.
From Stdlib.Strings Require Import Byte.
Import ListNotations.

Local Open Scope Z_scope.

(** ** Data *)

(** A Python [bytes] object. *)
Definition bytes := list byte.

(** The line feed of the Python literal ["\n"]. *)
Definition LF : string := String (ascii_of_nat 10) EmptyString.

(** The exceptions that travel through the script.  [Exception message]
    stands for any instance of [Exception], [message] being its [str];
    [SystemExit code] is what [sys.exit(code)] raises.  [SystemExit] derives
    from [BaseException] only, so [except Exception] lets it through. *)
Inductive BaseException : Type :=
| Exception (message : string)
| SystemExit (code : Z).

Definition isinstance_Exception (e : BaseException) : bool :=
  match e with
  | Exception _ => true
  | SystemExit _ => false
  end.

(** [str(e)]: the message of an [Exception], the decimal code of a
    [SystemExit]. *)
Definition str (e : BaseException) : string :=
  match e with
  | Exception message => message
  | SystemExit code => NilZero.string_of_int (Z.to_int code)
  end.

(** What a call into a library does: it returns a value, it raises an
    instance of [Exception] with the given message, or it leaves through
    [sys.exit(code)], that is, raises [SystemExit(code)]. *)
Inductive result (A : Type) : Type :=
| Returns (a : A)
| Raises (message : string)
| Exits (code : Z).
Arguments Returns {A} a.
Arguments Raises {A} message.
Arguments Exits {A} code.

(** What becomes, when the interpreter exits, of the bytes that a write
    statement left in the buffer of [sys.stdout.buffer]: they are flushed,
    or the flush fails and the interpreter prints [report] on the diagnostic
    stream. *)
Inductive at_exit : Type :=
| Flushed
| FlushFails (report : string).

(** The surroundings of one run of the script.
    - [stdin_data]: every byte of the input stream up to its end;
    - [remove]: what [rembg.remove] does on this run.  It is a field of the
      run, not a global function, since the model behind it need not be
      deterministic from run to run;
    - [stdout_write]: what the statement [sys.stdout.buffer.write(...)]
      does on this run.  [Returns f]: the statement returns; the writer has
      taken the buffer, but bytes may still sit in its buffer, and [f]
      tells how their flush at the exit of the interpreter ends.  [Raises]:
      the statement raises (the reader of a pipe is gone, the disk is full,
      or stdout was closed before the start, in which case [sys.stdout] is
      [None] and the attribute lookup raises).  The byte count the
      statement returns is dropped by the script;
    - [stdout_taken]: how many leading bytes of a buffer handed to the
      write statement have reached the output stream when the process is
      over.  It is the length of the buffer on a sound stream, and less
      when the statement raised midway through a large buffer, when the
      flush at exit failed, or when an unbuffered stream took only part.
    Reading stdin and writing stderr are taken to succeed, and signals
    ([KeyboardInterrupt]) are no part of this model. *)
Record Env : Type := {
  stdin_data : bytes;
  remove : bytes -> result bytes;
  stdout_write : bytes -> result at_exit;
  stdout_taken : bytes -> nat
}.

(** The effects of a run, in the order they happen.  [StdoutWrite] is a
    write statement that returned, [StdoutWriteFailed] one that raised; how
    many bytes reached the stream in either case is told by [stdout_taken].
    [ExitFlushFailed] is the failure of the flush of [sys.stdout] when the
    interpreter exits, with the report that the interpreter prints. *)
Inductive event : Type :=
| StdinRead (data : bytes)
| RemoveCall (arg : bytes) (r : result bytes)
| StdoutWrite (data : bytes)
| StdoutWriteFailed (data : bytes) (message : string)
| StderrWrite (text : string)
| ExitFlushFailed (report : string).

(** ** The monad of the script *)

Inductive outcome (A : Type) : Type :=
| Normal (a : A)
| Raised (e : BaseException).
Arguments Normal {A} a.
Arguments Raised {A} e.

Definition Py (A : Type) : Type := Env -> list event -> outcome A * list event.

Definition ret {A : Type} (a : A) : Py A :=
  fun _ t => (Normal a, t).

Definition bind {A B : Type} (c : Py A) (k : A -> Py B) : Py B :=
  fun env t =>
    match c env t with
    | (Normal a, t') => k a env t'
    | (Raised e, t') => (Raised e, t')
    end.

Definition raise {A : Type} (e : BaseException) : Py A :=
  fun _ t => (Raised e, t).

Definition emit (ev : event) : Py unit :=
  fun _ t => (Normal tt, t ++ [ev]).

Declare Scope py_scope.
Delimit Scope py_scope with py.
Notation "x <- c ;; k" := (bind c (fun x => k))
  (at level 61, c at next level, right associativity) : py_scope.
Notation "c ;; k" := (bind c (fun _ => k))
  (at level 61, right associativity) : py_scope.
Local Open Scope py_scope.

(** [try: body / except Exception as e: handler e].  Only instances of
    [Exception] are handed to the handler. *)
Definition try_except_Exception {A : Type}
    (body : Py A) (handler : BaseException -> Py A) : Py A :=
  fun env t =>
    match body env t with
    | (Normal a, t') => (Normal a, t')
    | (Raised e, t') =>
        if isinstance_Exception e then handler e env t' else (Raised e, t')
    end.

(** ** The library calls of the script *)

(** [sys.stdin.buffer.read()]: the whole stream, blocking until its end. *)
Definition sys_stdin_buffer_read : Py bytes :=
  fun env t => (Normal (stdin_data env), t ++ [StdinRead (stdin_data env)]).

(** [sys.stderr.write(text)]. *)
Definition sys_stderr_write (text : string) : Py unit :=
  emit (StderrWrite text).

(** [sys.exit(code)]. *)
Definition sys_exit {A : Type} (code : Z) : Py A :=
  raise (SystemExit code).

(** [rembg.remove(data)]. *)
Definition rembg_remove (data : bytes) : Py bytes :=
  fun env t =>
    match remove env data with
    | Returns out => (Normal out, t ++ [RemoveCall data (Returns out)])
    | Raises message =>
        (Raised (Exception message), t ++ [RemoveCall data (Raises message)])
    | Exits code =>
        (Raised (SystemExit code), t ++ [RemoveCall data (Exits code)])
    end.

(** [sys.stdout.buffer.write(data)].  A statement that returns has handed
    the buffer to the writer, no more: what reaches the stream is told by
    [stdout_taken], and the flush of the rest is left to the interpreter. *)
Definition sys_stdout_buffer_write (data : bytes) : Py unit :=
  fun env t =>
    match stdout_write env data with
    | Returns _ => (Normal tt, t ++ [StdoutWrite data])
    | Raises message =>
        (Raised (Exception message), t ++ [StdoutWriteFailed data message])
    | Exits code =>
        (Raised (SystemExit code),
         t ++ [StdoutWriteFailed data (str (SystemExit code))])
    end.

(** [not b] on a [bytes] object: true exactly when its length is zero. *)
Definition not_ (b : bytes) : bool := Nat.eqb (List.length b) 0.

(** ** The script *)

(** [def main()]. *)
Definition main : Py unit :=
  input_data <- sys_stdin_buffer_read ;;
  (if not_ input_data then
     sys_stderr_write ("Error: No input data received" ++ LF) ;;
     sys_exit 1
   else ret tt) ;;
  try_except_Exception
    (output_data <- rembg_remove input_data ;;
     sys_stdout_buffer_write output_data)
    (fun e =>
       sys_stderr_write ("Error: " ++ str e ++ LF) ;;
       sys_exit 1).

(** ** Reading a trace *)

(** The buffers of the write statements that returned, one per statement. *)
Fixpoint stdout_writes (t : list event) : list bytes :=
  match t with
  | [] => []
  | StdoutWrite data :: t' => data :: stdout_writes t'
  | _ :: t' => stdout_writes t'
  end.

(** The buffers handed to [sys.stdout.buffer.write], one per statement,
    whether the statement returned or raised. *)
Fixpoint stdout_attempts (t : list event) : list bytes :=
  match t with
  | [] => []
  | StdoutWrite data :: t' => data :: stdout_attempts t'
  | StdoutWriteFailed data _ :: t' => data :: stdout_attempts t'
  | _ :: t' => stdout_attempts t'
  end.

(** The messages written on the diagnostic stream by the script, one per
    write. *)
Fixpoint stderr_writes (t : list event) : list string :=
  match t with
  | [] => []
  | StderrWrite text :: t' => text :: stderr_writes t'
  | _ :: t' => stderr_writes t'
  end.

(** Everything that is printed on the diagnostic stream: the messages of
    the script and the reports of the interpreter. *)
Fixpoint stderr_texts (t : list event) : list string :=
  match t with
  | [] => []
  | StderrWrite text :: t' => text :: stderr_texts t'
  | ExitFlushFailed report :: t' => report :: stderr_texts t'
  | _ :: t' => stderr_texts t'
  end.

(** The calls made to the removal capability. *)
Fixpoint remove_calls (t : list event) : list bytes :=
  match t with
  | [] => []
  | RemoveCall arg _ :: t' => arg :: remove_calls t'
  | _ :: t' => remove_calls t'
  end.

(** The reads of the input stream. *)
Fixpoint stdin_reads (t : list event) : list bytes :=
  match t with
  | [] => []
  | StdinRead data :: t' => data :: stdin_reads t'
  | _ :: t' => stdin_reads t'
  end.

(** ** The interpreter around the script *)

(** How the process ends.  [Exited status] is an end of the interpreter
    with that exit status; [UncaughtException] is an exception that reached
    the top of the script, where the interpreter prints a traceback. *)
Inductive termination : Type :=
| Exited (status : Z)
| UncaughtException (message : string).

Record process : Type := {
  trace : list event;
  status : termination
}.

(** The flush of a buffer that a write statement left with the writer.  An
    empty buffer leaves nothing to flush. *)
Definition flush_report (data : bytes) (f : at_exit) : option string :=
  match f with
  | Flushed => None
  | FlushFails report => if not_ data then None else Some report
  end.

(** The flush of [sys.stdout] when the interpreter exits, over the buffers
    of the write statements that returned: the report of the first flush
    that fails, if any. *)
Fixpoint flush_std_files (env : Env) (written : list bytes) : option string :=
  match written with
  | [] => None
  | data :: rest =>
      match stdout_write env data with
      | Returns f =>
          match flush_report data f with
          | Some report => Some report
          | None => flush_std_files env rest
          end
      | _ => flush_std_files env rest
      end
  end.

(** How the script asks to leave: falling off the end is exit status 0, a
    [SystemExit] carries its code (the low eight bits reach the parent
    process). *)
Definition leave (o : outcome unit) : termination :=
  match o with
  | Normal _ => Exited 0
  | Raised (SystemExit code) => Exited (Z.land code 255)
  | Raised (Exception message) => UncaughtException message
  end.

(** [if __name__ == "__main__": main()], and the end of the interpreter:
    the output stream is flushed, and when that flush fails the interpreter
    prints its report and the exit status is 120, whatever the script asked
    for. *)
Definition script (env : Env) : process :=
  let (o, t) := main env [] in
  match flush_std_files env (stdout_writes t) with
  | None => {| trace := t; status := leave o |}
  | Some report =>
      {| trace := t ++ [ExitFlushFailed report]; status := Exited 120 |}
  end.

(** ** What an observer of the process sees *)

(** The content of the output stream: of every buffer handed to a write
    statement, the leading bytes that the stream took. *)
Definition stdout_of (env : Env) (t : list event) : bytes :=
  List.concat
    (List.map (fun data => firstn (stdout_taken env data) data)
              (stdout_attempts t)).

(** The content of the diagnostic stream. *)
Definition stderr_of (t : list event) : string :=
  String.concat EmptyString (stderr_texts t).

Definition stdout (env : Env) : bytes := stdout_of env (trace (script env)).
Definition stderr (env : Env) : string := stderr_of (trace (script env)).
Definition exit_status (env : Env) : termination := status (script env).

(** The output stream takes every byte of a buffer. *)
Definition takes_whole (env : Env) (data : bytes) : Prop :=
  (List.length data <= stdout_taken env data)%nat.

(** The output stream is sound on what the capability returns: the write
    statement returns, the flush at exit does not fail, and the stream
    takes every byte. *)
Definition sound_stdout (env : Env) : Prop :=
  forall out, remove env (stdin_data env) = Returns out ->
              stdout_write env out = Returns Flushed /\ takes_whole env out.


(** ** The contract of the removal capability

    Which buffers are images and which are well-encoded PNG streams is
    decided by the image library, outside the script: both are parameters. *)

Section Capability.

Variable valid_image : bytes -> Prop.
Variable valid_png : bytes -> Prop.

(** Whatever the capability returns is a well-encoded PNG stream. *)
Definition returns_png (env : Env) : Prop :=
  forall data out, remove env data = Returns out -> valid_png out.

(** The capability does not fail on an image. *)
Definition accepts_images (env : Env) : Prop :=
  forall data, valid_image data -> exists out, remove env data = Returns out.

Definition meets_contract (env : Env) : Prop :=
  returns_png env /\ accepts_images env.

End Capability.

(** ** The runs of the script

    The shapes a run can take, told apart by what the surroundings did;
    [script_Run] below shows that the script has no other run. *)

Inductive Run (env : Env) : process -> Prop :=
| RunEmpty :
    stdin_data env = [] ->
    Run env
      {| trace := [StdinRead [];
                   StderrWrite ("Error: No input data received" ++ LF)];
         status := Exited 1 |}
| RunRemoveFails (message : string) :
    stdin_data env <> [] ->
    remove env (stdin_data env) = Raises message ->
    Run env
      {| trace := [StdinRead (stdin_data env);
                   RemoveCall (stdin_data env) (Raises message);
                   StderrWrite ("Error: " ++ message ++ LF)];
         status := Exited 1 |}
| RunRemoveExits (code : Z) :
    stdin_data env <> [] ->
    remove env (stdin_data env) = Exits code ->
    Run env
      {| trace := [StdinRead (stdin_data env);
                   RemoveCall (stdin_data env) (Exits code)];
         status := Exited (Z.land code 255) |}
| RunWriteFails (out : bytes) (message : string) :
    stdin_data env <> [] ->
    remove env (stdin_data env) = Returns out ->
    stdout_write env out = Raises message ->
    Run env
      {| trace := [StdinRead (stdin_data env);
                   RemoveCall (stdin_data env) (Returns out);
                   StdoutWriteFailed out message;
                   StderrWrite ("Error: " ++ message ++ LF)];
         status := Exited 1 |}
| RunWriteExits (out : bytes) (code : Z) :
    stdin_data env <> [] ->
    remove env (stdin_data env) = Returns out ->
    stdout_write env out = Exits code ->
    Run env
      {| trace := [StdinRead (stdin_data env);
                   RemoveCall (stdin_data env) (Returns out);
                   StdoutWriteFailed out (str (SystemExit code))];
         status := Exited (Z.land code 255) |}
| RunWritten (out : bytes) (u : at_exit) :
    stdin_data env <> [] ->
    remove env (stdin_data env) = Returns out ->
    stdout_write env out = Returns u ->
    flush_report out u = None ->
    Run env
      {| trace := [StdinRead (stdin_data env);
                   RemoveCall (stdin_data env) (Returns out);
                   StdoutWrite out];
         status := Exited 0 |}
| RunFlushFails (out : bytes) (u : at_exit) (report : string) :
    stdin_data env <> [] ->
    remove env (stdin_data env) = Returns out ->
    stdout_write env out = Returns u ->
    flush_report out u = Some report ->
    Run env
      {| trace := [StdinRead (stdin_data env);
                   RemoveCall (stdin_data env) (Returns out);
                   StdoutWrite out;
                   ExitFlushFailed report];
         status := Exited 120 |}.

(** ** Sample surroundings *)

(** The eight bytes every PNG stream starts with. *)
Definition png_signature : bytes :=
  [x89; x50; x4e; x47; x0d; x0a; x1a; x0a]%byte.

Fixpoint starts_with (p b : bytes) : bool :=
  match p, b with
  | [], _ => true
  | _ :: _, [] => false
  | x :: p', y :: b' => Byte.eqb x y && starts_with p' b'
  end.

Definition has_png_signature (b : bytes) : bool := starts_with png_signature b.

(** A buffer with the PNG signature followed by the start of a header chunk. *)
Definition sample_png : bytes :=
  png_signature ++ [x00; x00; x00; x0d; x49; x48; x44; x52]%byte.

(** The first bytes of a JPEG stream. *)
Definition sample_jpeg : bytes := [xff; xd8; xff; xe0]%byte.

(** The bytes of [b"not an image"]. *)
Definition not_an_image : bytes :=
  [x6e; x6f; x74; x20; x61; x6e; x20; x69; x6d; x61; x67; x65]%byte.

(** A capability that turns the sample JPEG into the sample PNG and rejects
    everything else. *)
Definition sample_remove (data : bytes) : result bytes :=
  if starts_with sample_jpeg data then Returns sample_png
  else Raises "cannot identify image file".

(** A capability that returns an empty buffer on every input. *)
Definition blank_remove (data : bytes) : result bytes := Returns [].

(** A capability that gives up through [sys.exit(3)]. *)
Definition exiting_remove (data : bytes) : result bytes := Exits 3.

(** What the interpreter prints when the flush at exit meets a full disk. *)
Definition no_space_report : string :=
  ("Exception ignored in: <_io.TextIOWrapper name='<stdout>' mode='w' encoding='utf-8'>"
   ++ LF ++ "OSError: [Errno 28] No space left on device" ++ LF)%string.

Definition working_stdout (data : bytes) : result at_exit := Returns Flushed.
Definition broken_pipe (data : bytes) : result at_exit :=
  Raises "[Errno 32] Broken pipe".
Definition closed_stdout (data : bytes) : result at_exit :=
  Raises "'NoneType' object has no attribute 'buffer'".
(** A buffered stream on a full disk: the statement returns, the flush at
    exit fails. *)
Definition full_disk (data : bytes) : result at_exit :=
  Returns (FlushFails no_space_report).

Definition takes_all (data : bytes) : nat := List.length data.
Definition takes_nothing (data : bytes) : nat := 0%nat.
Definition takes_eight (data : bytes) : nat := 8%nat.

Definition env_empty : Env :=
  {| stdin_data := []; remove := sample_remove;
     stdout_write := working_stdout; stdout_taken := takes_all |}.
Definition env_jpeg : Env :=
  {| stdin_data := sample_jpeg; remove := sample_remove;
     stdout_write := working_stdout; stdout_taken := takes_all |}.
Definition env_garbage : Env :=
  {| stdin_data := not_an_image; remove := sample_remove;
     stdout_write := working_stdout; stdout_taken := takes_all |}.
(** Unbuffered output into a pipe whose reader is gone. *)
Definition env_broken_pipe : Env :=
  {| stdin_data := sample_jpeg; remove := sample_remove;
     stdout_write := broken_pipe; stdout_taken := takes_nothing |}.
Definition env_blank : Env :=
  {| stdin_data := sample_jpeg; remove := blank_remove;
     stdout_write := working_stdout; stdout_taken := takes_all |}.
Definition env_blank_closed : Env :=
  {| stdin_data := sample_jpeg; remove := blank_remove;
     stdout_write := closed_stdout; stdout_taken := takes_nothing |}.
(** Output redirected to a device that takes no byte at all. *)
Definition env_full_disk : Env :=
  {| stdin_data := sample_jpeg; remove := sample_remove;
     stdout_write := full_disk; stdout_taken := takes_nothing |}.
(** Output redirected to a disk that has room for eight more bytes. *)
Definition env_short_disk : Env :=
  {| stdin_data := sample_jpeg; remove := sample_remove;
     stdout_write := full_disk; stdout_taken := takes_eight |}.
Definition env_remove_exits : Env :=
  {| stdin_data := sample_jpeg; remove := exiting_remove;
     stdout_write := working_stdout; stdout_taken := takes_all |}.

(** The sample predicates: an image is a buffer that starts like the sample
    JPEG, a PNG stream is a buffer that starts with the PNG signature. *)
Definition is_sample_image (b : bytes) : Prop := starts_with sample_jpeg b = true.
Definition is_signed_png (b : bytes) : Prop := has_png_signature b = true.

(** A second capability for the same input: a PNG stream as well, but not
    the same bytes. *)
Definition sample_remove_bis (data : bytes) : result bytes :=
  if starts_with sample_jpeg data then Returns (sample_png ++ [x00]%byte)
  else Raises "cannot identify image file".

Definition env_jpeg_bis : Env :=
  {| stdin_data := sample_jpeg; remove := sample_remove_bis;
     stdout_write := working_stdout; stdout_taken := takes_all |}.

(** A capability that agrees with [sample_remove] on the sample JPEG and
    returns an empty buffer on everything else. *)
Definition lenient_remove (data : bytes) : result bytes :=
  if starts_with sample_jpeg data then Returns sample_png else Returns [].

(** An output stream that takes the sample PNG and refuses any other
    buffer. *)
Definition picky_stdout (data : bytes) : result at_exit :=
  if starts_with sample_png data then Returns Flushed
  else Raises "[Errno 28] No space left on device".

Definition env_jpeg_other : Env :=
  {| stdin_data := sample_jpeg; remove := lenient_remove;
     stdout_write := picky_stdout; stdout_taken := takes_all |}.

(** * Properties *)

(** Every run of the script is one of those of [Run]. *)
Lemma script_Run (env : Env) : Run env (script env).
Proof.
  unfold script, main, bind, try_except_Exception, sys_stdin_buffer_read,
    rembg_remove, sys_stdout_buffer_write, sys_stderr_write, sys_exit,
    raise, emit, ret, not_.
  destruct (stdin_data env) as [|b input] eqn:Hin; cbn.
  - now apply RunEmpty.
  - assert (Hne : stdin_data env <> []) by (rewrite Hin; discriminate).
    rewrite <- Hin.
    destruct (remove env (stdin_data env)) as [out|message|code] eqn:Hrm; cbn.
    + destruct (stdout_write env out) as [u|message|code] eqn:Hw; cbn.
      * rewrite Hw.
        destruct (flush_report out u) as [report|] eqn:Hfl.
        -- now apply RunFlushFails with (u := u).
        -- now apply RunWritten with (u := u).
      * now apply RunWriteFails.
      * now apply RunWriteExits.
    + now apply RunRemoveFails.
    + now apply RunRemoveExits.
Qed.

(** Case analysis on the run of [env]: the process [script env] is replaced
    everywhere by its trace and status, one goal per kind of run.  The facts
    of the run are named [Rin] (the input), [Rrm] (the removal), [Rw] (the
    write) and [Rfl] (the flush at exit). *)
Ltac run_cases env :=
  unfold stdout, stderr, exit_status in *;
  let R := fresh "R" in
  let p := fresh "p" in
  let Hp := fresh "Hp" in
  pose proof (script_Run env) as R;
  remember (script env) as p eqn:Hp;
  clear Hp;
  destruct R as [Rin | rmsg Rin Rrm | rcode Rin Rrm
                | rout rmsg Rin Rrm Rw | rout rcode Rin Rrm Rw
                | rout ru Rin Rrm Rw Rfl | rout ru rreport Rin Rrm Rw Rfl];
  cbn [trace status stdout_of stderr_of stdout_writes stderr_writes
       stdout_attempts stderr_texts remove_calls stdin_reads
       List.concat List.map String.concat List.app] in *.

(** Two facts about one call of the surroundings: they contradict each
    other, or they name the same result. *)
Ltac same_call :=
  repeat match goal with
  | H : ?x = [], N : ?x <> [] |- _ => destruct (N H)
  | H : ?x = Returns _, H' : ?x = Raises _ |- _ =>
      rewrite H in H'; discriminate H'
  | H : ?x = Raises _, H' : ?x = Returns _ |- _ =>
      rewrite H in H'; discriminate H'
  | H : ?x = Returns _, H' : ?x = Exits _ |- _ =>
      rewrite H in H'; discriminate H'
  | H : ?x = Exits _, H' : ?x = Returns _ |- _ =>
      rewrite H in H'; discriminate H'
  | H : ?x = Raises _, H' : ?x = Exits _ |- _ =>
      rewrite H in H'; discriminate H'
  | H : ?x = Exits _, H' : ?x = Raises _ |- _ =>
      rewrite H in H'; discriminate H'
  | H : ?x = Returns _, H' : ?x = Returns _ |- _ =>
      rewrite H in H'; injection H' as <-
  | H : ?x = Raises _, H' : ?x = Raises _ |- _ =>
      rewrite H in H'; injection H' as <-
  | H : ?x = Exits _, H' : ?x = Exits _ |- _ =>
      rewrite H in H'; injection H' as <-
  end.

(** A membership in a concrete trace that no element allows. *)
Ltac in_trace F :=
  cbn in F;
  repeat (destruct F as [F|F]; [discriminate F|]);
  destruct F.

(** The one call of the capability in a concrete trace. *)
Ltac the_call F :=
  cbn in F;
  repeat (destruct F as [F|F];
          [first [discriminate F | injection F as <- <-; auto]|]);
  destruct F.

(** A string starts with what it was built from. *)
Lemma prefix_app (p s : string) : String.prefix p (p ++ s) = true.
Proof.
  induction p as [|c p IH]; cbn.
  - now destruct s.
  - destruct (ascii_dec c c) as [_|N]; [exact IH | now destruct N].
Qed.

(** Nothing is left to flush of an empty buffer. *)
Lemma flush_report_nil (u : at_exit) : flush_report [] u = None.
Proof. now destruct u. Qed.

(** What the stream takes whole is what was handed to it. *)
Lemma firstn_takes_whole (env : Env) (data : bytes) :
  takes_whole env data -> firstn (stdout_taken env data) data = data.
Proof. intros H. now apply firstn_all2. Qed.

(** The emptiness test passes a buffer that holds a byte. *)
Lemma one_call (b : bytes) :
  b <> [] -> [b] = (if not_ b then [] else [b]).
Proof. intros N. destruct b; [now destruct N | reflexivity]. Qed.

Lemma is_signed_png_nonempty (out : bytes) : is_signed_png out -> out <> [].
Proof. intros H ->. discriminate H. Qed.

Lemma sample_remove_meets_contract (env : Env) :
  remove env = sample_remove ->
  meets_contract is_sample_image is_signed_png env.
Proof.
  intros Hr. split.
  - intros data out. rewrite Hr. unfold sample_remove.
    destruct (starts_with sample_jpeg data); intros H; [|discriminate H].
    injection H as <-. reflexivity.
  - intros data Hv. rewrite Hr. unfold sample_remove.
    unfold is_sample_image in Hv. rewrite Hv. now exists sample_png.
Qed.

Lemma sample_remove_bis_meets_contract (env : Env) :
  remove env = sample_remove_bis ->
  meets_contract is_sample_image is_signed_png env.
Proof.
  intros Hr. split.
  - intros data out. rewrite Hr. unfold sample_remove_bis.
    destruct (starts_with sample_jpeg data); intros H; [|discriminate H].
    injection H as <-. reflexivity.
  - intros data Hv. rewrite Hr. unfold sample_remove_bis.
    unfold is_sample_image in Hv. rewrite Hv. eauto.
Qed.

(** ** The script on the sample surroundings *)

Example run_on_empty_input :
  script env_empty
  = {| trace := [StdinRead [];
                 StderrWrite ("Error: No input data received" ++ LF)];
       status := Exited 1 |}.
Proof. reflexivity. Qed.

Example run_on_jpeg :
  script env_jpeg
  = {| trace := [StdinRead sample_jpeg;
                 RemoveCall sample_jpeg (Returns sample_png);
                 StdoutWrite sample_png];
       status := Exited 0 |}.
Proof. reflexivity. Qed.

Example run_on_garbage :
  script env_garbage
  = {| trace := [StdinRead not_an_image;
                 RemoveCall not_an_image (Raises "cannot identify image file");
                 StderrWrite ("Error: cannot identify image file" ++ LF)];
       status := Exited 1 |}.
Proof. reflexivity. Qed.

Example run_on_broken_pipe :
  script env_broken_pipe
  = {| trace := [StdinRead sample_jpeg;
                 RemoveCall sample_jpeg (Returns sample_png);
                 StdoutWriteFailed sample_png "[Errno 32] Broken pipe";
                 StderrWrite ("Error: [Errno 32] Broken pipe" ++ LF)];
       status := Exited 1 |}.
Proof. reflexivity. Qed.

Example run_on_full_disk :
  script env_full_disk
  = {| trace := [StdinRead sample_jpeg;
                 RemoveCall sample_jpeg (Returns sample_png);
                 StdoutWrite sample_png;
                 ExitFlushFailed no_space_report];
       status := Exited 120 |}.
Proof. reflexivity. Qed.

Example run_on_exiting_capability :
  script env_remove_exits
  = {| trace := [StdinRead sample_jpeg; RemoveCall sample_jpeg (Exits 3)];
       status := Exited 3 |}.
Proof. reflexivity. Qed.

(** [sys.exit] inside a [try] block is not caught by [except Exception]. *)
Example SystemExit_passes_the_handler :
  try_except_Exception (sys_exit 3) (fun _ => ret tt) env_empty []
  = (Raised (SystemExit 3), []).
Proof. reflexivity. Qed.

(** ** Empty input *)

(** C1.  When the input stream holds no byte, the diagnostic stream receives
    exactly ["Error: No input data received\n"], the output stream receives
    nothing, the removal capability is never called, and the exit status
    is 1. *)
Theorem empty_input_is_rejected (env : Env) :
  stdin_data env = [] ->
  stderr env = ("Error: No input data received" ++ LF)%string /\
  stdout env = [] /\
  remove_calls (trace (script env)) = [] /\
  exit_status env = Exited 1.
Proof.
  intros Hin. run_cases env; same_call.
  repeat split; reflexivity.
Qed.

Lemma empty_input_is_rejected_witness :
  stdin_data env_empty = [] /\
  stderr env_empty = ("Error: No input data received" ++ LF)%string /\
  stdout env_empty = [] /\
  remove_calls (trace (script env_empty)) = [] /\
  exit_status env_empty = Exited 1.
Proof.
  split; [reflexivity | apply (empty_input_is_rejected env_empty); reflexivity].
Defined.

(** ** Failure of the removal capability *)

(** C2.  When the input is not empty and the removal capability raises an
    error, the error is caught: the diagnostic stream receives
    ["Error: <message>\n"] with the message of the error, the output stream
    receives nothing (no write is even tried), and the exit status is 1. *)
Theorem removal_failure_is_reported (env : Env) (message : string) :
  stdin_data env <> [] ->
  remove env (stdin_data env) = Raises message ->
  stderr env = ("Error: " ++ message ++ LF)%string /\
  stdout env = [] /\
  (forall data msg, ~ In (StdoutWriteFailed data msg) (trace (script env))) /\
  exit_status env = Exited 1.
Proof.
  intros Hin Hrm. run_cases env; same_call.
  repeat split; try reflexivity.
  intros data msg [F|[F|[F|[]]]]; discriminate F.
Qed.

Lemma removal_failure_is_reported_witness :
  stdin_data env_garbage <> [] /\
  remove env_garbage (stdin_data env_garbage)
    = Raises "cannot identify image file" /\
  stderr env_garbage = ("Error: cannot identify image file" ++ LF)%string /\
  stdout env_garbage = [] /\
  exit_status env_garbage = Exited 1.
Proof.
  assert (Hin : stdin_data env_garbage <> []) by discriminate.
  assert (Hrm : remove env_garbage (stdin_data env_garbage)
                = Raises "cannot identify image file") by reflexivity.
  destruct (removal_failure_is_reported env_garbage _ Hin Hrm)
    as (He & Ho & _ & Hs).
  repeat split; assumption.
Defined.

(** ** Success of the removal capability *)

(** C3, as the claim reads: whenever the input is not empty and the removal
    capability returns a buffer, that buffer is the content of the output
    stream, the diagnostic stream is empty and the exit status is 0.  It
    fails when the write to the output stream raises: the [try] block
    encloses the write as well, so the run ends as a failure.  It fails
    again when the write statement returns with the bytes still in the
    buffer of the writer and the flush at exit meets a full disk: nothing
    reaches the stream and the exit status is 120. *)
Lemma removal_success_is_not_enough :
  stdin_data env_broken_pipe <> [] /\
  remove env_broken_pipe (stdin_data env_broken_pipe) = Returns sample_png /\
  ~ (stdout env_broken_pipe = sample_png /\
     stderr env_broken_pipe = EmptyString /\
     exit_status env_broken_pipe = Exited 0) /\
  stdout env_broken_pipe = [] /\
  stderr env_broken_pipe = ("Error: [Errno 32] Broken pipe" ++ LF)%string /\
  exit_status env_broken_pipe = Exited 1 /\
  stdin_data env_full_disk <> [] /\
  remove env_full_disk (stdin_data env_full_disk) = Returns sample_png /\
  stdout_writes (trace (script env_full_disk)) = [sample_png] /\
  stdout env_full_disk = [] /\
  stderr env_full_disk = no_space_report /\
  exit_status env_full_disk = Exited 120.
Proof.
  split; [discriminate|].
  split; [reflexivity|].
  split; [intros (Hout & _); vm_compute in Hout; discriminate Hout|].
  split; [reflexivity|]. split; [reflexivity|]. split; [reflexivity|].
  split; [discriminate|].
  repeat split; reflexivity.
Qed.

(** C3, amended.  When the input is not empty, the removal capability
    returns a buffer, the write of that buffer to the output stream
    returns, the flush of the stream at exit does not fail and the stream
    takes every byte, the output stream receives exactly that buffer, from
    one write, the diagnostic stream receives nothing, and the exit status
    is 0. *)
Theorem result_is_written_in_full (env : Env) (out : bytes) :
  stdin_data env <> [] ->
  remove env (stdin_data env) = Returns out ->
  stdout_write env out = Returns Flushed ->
  takes_whole env out ->
  stdout env = out /\
  stdout_writes (trace (script env)) = [out] /\
  stderr_writes (trace (script env)) = [] /\
  stderr env = EmptyString /\
  exit_status env = Exited 0.
Proof.
  intros Hin Hrm Hw Hall. run_cases env; same_call.
  - repeat split; try reflexivity.
    rewrite app_nil_r. now apply firstn_takes_whole.
  - discriminate Rfl.
Qed.

Lemma result_is_written_in_full_witness :
  stdin_data env_jpeg <> [] /\
  remove env_jpeg (stdin_data env_jpeg) = Returns sample_png /\
  stdout_write env_jpeg sample_png = Returns Flushed /\
  takes_whole env_jpeg sample_png /\
  stdout env_jpeg = sample_png /\
  stderr env_jpeg = EmptyString /\
  exit_status env_jpeg = Exited 0.
Proof.
  assert (Hin : stdin_data env_jpeg <> []) by discriminate.
  assert (Hrm : remove env_jpeg (stdin_data env_jpeg) = Returns sample_png)
    by reflexivity.
  assert (Hw : stdout_write env_jpeg sample_png = Returns Flushed)
    by reflexivity.
  assert (Hall : takes_whole env_jpeg sample_png) by (apply le_n).
  destruct (result_is_written_in_full env_jpeg sample_png Hin Hrm Hw Hall)
    as (Ho & _ & _ & He & Hs).
  repeat split; assumption.
Defined.

(** ** Failure of the write itself *)



(** ** An empty result *)

(** C10, as the claim reads: whenever the input is not empty and the removal
    capability returns an empty buffer, the exit status is 0.  It fails
    when the write raises, which a write of zero bytes does on a closed
    output stream. *)
Lemma empty_result_is_not_enough :
  stdin_data env_blank_closed <> [] /\
  remove env_blank_closed (stdin_data env_blank_closed) = Returns [] /\
  ~ (stdout env_blank_closed = [] /\ exit_status env_blank_closed = Exited 0) /\
  exit_status env_blank_closed = Exited 1.
Proof.
  split; [discriminate|].
  split; [reflexivity|].
  split; [|reflexivity].
  intros (_ & Hs). vm_compute in Hs. discriminate Hs.
Qed.

(** C10, amended.  When the input is not empty, the removal capability
    returns an empty buffer without raising and the write of that buffer
    does not raise, the output stream receives zero bytes, nothing is
    reported and the exit status is 0: a success with an empty output. *)
Theorem empty_result_is_a_success (env : Env) (u : at_exit) :
  stdin_data env <> [] ->
  remove env (stdin_data env) = Returns [] ->
  stdout_write env [] = Returns u ->
  stdout env = [] /\
  stderr env = EmptyString /\
  exit_status env = Exited 0.
Proof.
  intros Hin Hrm Hw. run_cases env; same_call.
  - rewrite firstn_nil. repeat split; reflexivity.
  - rewrite flush_report_nil in Rfl. discriminate Rfl.
Qed.

Lemma empty_result_is_a_success_witness :
  stdin_data env_blank <> [] /\
  remove env_blank (stdin_data env_blank) = Returns [] /\
  stdout_write env_blank [] = Returns Flushed /\
  stdout env_blank = [] /\
  stderr env_blank = EmptyString /\
  exit_status env_blank = Exited 0.
Proof.
  assert (Hin : stdin_data env_blank <> []) by discriminate.
  assert (Hrm : remove env_blank (stdin_data env_blank) = Returns [])
    by reflexivity.
  assert (Hw : stdout_write env_blank [] = Returns Flushed) by reflexivity.
  pose proof (empty_result_is_a_success env_blank Flushed Hin Hrm Hw) as H.
  repeat split; try assumption; apply H.
Defined.

(** ** Order of the effects *)

(** C4.  Wherever a write to the output stream stands in the trace of a
    run, the read of the whole input stream and a call of the removal
    capability that returned the written buffer stand before it; and such a
    write exists only if the input is not empty and the capability returned
    that buffer without failing. *)
Theorem output_only_after_success
    (env : Env) (pre post : list event) (data : bytes) :
  trace (script env) = pre ++ StdoutWrite data :: post ->
  In (StdinRead (stdin_data env)) pre /\
  In (RemoveCall (stdin_data env) (Returns data)) pre /\
  stdin_data env <> [] /\
  remove env (stdin_data env) = Returns data.
Proof.
  intros Ht. run_cases env;
    repeat (destruct pre as [|? pre]; cbn in Ht; try discriminate Ht;
            injection Ht as <- Ht);
    try discriminate Ht.
  all: subst post; repeat split; cbn; auto.
Qed.

Lemma output_only_after_success_witness :
  trace (script env_jpeg)
    = [StdinRead sample_jpeg; RemoveCall sample_jpeg (Returns sample_png)]
      ++ StdoutWrite sample_png :: [] /\
  In (StdinRead (stdin_data env_jpeg))
     [StdinRead sample_jpeg; RemoveCall sample_jpeg (Returns sample_png)] /\
  remove env_jpeg (stdin_data env_jpeg) = Returns sample_png.
Proof.
  assert (Ht : trace (script env_jpeg)
               = [StdinRead sample_jpeg;
                  RemoveCall sample_jpeg (Returns sample_png)]
                 ++ StdoutWrite sample_png :: []) by reflexivity.
  destruct (output_only_after_success env_jpeg _ _ _ Ht) as (Hr & _ & _ & Hrm).
  repeat split; assumption.
Defined.

(** ** Exit status *)




(** ** One write per run *)

(** C6.  A run makes at most one write in total over the output stream and
    the diagnostic stream, hence never both and never two error lines; a
    write to the output stream carries the whole buffer returned by the
    removal capability, and a write to the diagnostic stream is one message
    of the form ["Error: <message>\n"]. *)
Theorem at_most_one_write (env : Env) :
  (List.length (stdout_writes (trace (script env)))
   + List.length (stderr_writes (trace (script env))) <= 1)%nat /\
  (stdout_writes (trace (script env)) = [] \/
   stderr_writes (trace (script env)) = []) /\
  (forall data, In data (stdout_writes (trace (script env))) ->
     remove env (stdin_data env) = Returns data) /\
  (forall text, In text (stderr_writes (trace (script env))) ->
     exists message, text = ("Error: " ++ message ++ LF)%string).
Proof.
  run_cases env; repeat split; cbn; auto;
    try (intros ? []; fail);
    try (intros data [<-|[]]; assumption);
    intros text [<-|[]].
  - now exists "No input data received"%string.
  - now exists rmsg.
  - now exists rmsg.
Qed.

(** ** Under the contract of the capability *)

Section Contract.

Variable valid_image : bytes -> Prop.
Variable valid_png : bytes -> Prop.

(** A PNG stream holds at least its signature. *)
Hypothesis valid_png_nonempty : forall out, valid_png out -> out <> [].

(** One run on an image, with a capability that meets its contract and a
    sound output stream. *)
Lemma image_run_succeeds (env : Env) :
  valid_image (stdin_data env) ->
  stdin_data env <> [] ->
  meets_contract valid_image valid_png env ->
  sound_stdout env ->
  exit_status env = Exited 0 /\
  stdout env <> [] /\
  valid_png (stdout env).
Proof.
  intros Hv Hin [Hpng Hacc] Hsound.
  destruct (Hacc _ Hv) as (out & Hrm).
  destruct (Hsound _ Hrm) as (Hw & Hall).
  pose proof (Hpng _ _ Hrm) as Hout.
  run_cases env; same_call.
  - rewrite app_nil_r, (firstn_takes_whole _ _ Hall). auto.
  - discriminate Rfl.
Qed.

(** C7, amended.  Every message written on the diagnostic stream by the
    script starts with ["Error: "]; whatever the script writes on the output
    stream is the buffer returned by the removal capability, never a
    message of its own; and with a capability that returns well-encoded
    PNG streams, the content of the output stream is either empty or the
    leading part of one such stream that the output stream took: the whole
    of it when the stream takes every byte, a truncated copy otherwise. *)
Theorem streams_are_kept_apart (env : Env) :
  returns_png valid_png env ->
  (forall text, In text (stderr_writes (trace (script env))) ->
     String.prefix "Error: " text = true) /\
  (forall data, In data (stdout_writes (trace (script env))) ->
     remove env (stdin_data env) = Returns data) /\
  (stdout env = [] \/
   exists out, remove env (stdin_data env) = Returns out /\
               valid_png out /\
               stdout env = firstn (stdout_taken env out) out) /\
  (forall out, stdin_data env <> [] ->
               remove env (stdin_data env) = Returns out ->
               takes_whole env out ->
               stdout env = out).
Proof.
  intros Hpng. run_cases env; repeat split;
    try (intros ? []; fail);
    try (intros text [<-|[]]; apply prefix_app);
    try (intros data [<-|[]]; assumption);
    try (left; reflexivity);
    try (intros out Hin Hrm Hall; same_call;
         rewrite app_nil_r; now apply firstn_takes_whole);
    try (right; exists rout; rewrite app_nil_r;
         repeat split; [assumption | now apply (Hpng (stdin_data env))]).
  intros text [<-|[]]. reflexivity.
Qed.

(** C8, amended.  Two runs on the same non-empty image, each with a
    capability that meets its contract and each with a sound output stream
    (the write of the result returns, the flush at exit does not fail and
    the stream takes every byte), both end with exit status 0 and both
    leave a non-empty, well-encoded PNG stream on the output; nothing makes
    the two outputs equal. *)
Theorem two_runs_both_succeed (env1 env2 : Env) :
  stdin_data env1 = stdin_data env2 ->
  valid_image (stdin_data env1) ->
  stdin_data env1 <> [] ->
  meets_contract valid_image valid_png env1 ->
  meets_contract valid_image valid_png env2 ->
  sound_stdout env1 ->
  sound_stdout env2 ->
  (exit_status env1 = Exited 0 /\ stdout env1 <> [] /\
   valid_png (stdout env1)) /\
  (exit_status env2 = Exited 0 /\ stdout env2 <> [] /\
   valid_png (stdout env2)).
Proof.
  intros Hsame Hv Hin Hc1 Hc2 Hw1 Hw2. split.
  - now apply image_run_succeeds.
  - apply image_run_succeeds; try assumption; rewrite <- Hsame; assumption.
Qed.

End Contract.

(** C7, as the claim reads: the output stream receives a complete PNG or
    nothing at all.  It fails on a disk with room for eight bytes: the write
    statement returns with the sixteen bytes of the result in the buffer of
    the writer, the flush at exit delivers eight of them and fails, and the
    output stream is left with a truncated copy. *)
Lemma output_may_be_truncated :
  returns_png is_signed_png env_short_disk /\
  remove env_short_disk (stdin_data env_short_disk) = Returns sample_png /\
  stdout env_short_disk = png_signature /\
  ~ (stdout env_short_disk = [] \/
     remove env_short_disk (stdin_data env_short_disk)
       = Returns (stdout env_short_disk)) /\
  exit_status env_short_disk = Exited 120.
Proof.
  split; [now apply (sample_remove_meets_contract env_short_disk)|].
  split; [reflexivity|].
  split; [reflexivity|].
  split; [|reflexivity].
  intros [F|F]; vm_compute in F; discriminate F.
Qed.

Lemma streams_are_kept_apart_witness :
  returns_png is_signed_png env_jpeg /\
  stdout env_jpeg = sample_png /\
  (stdout env_short_disk = [] \/
   exists out, remove env_short_disk (stdin_data env_short_disk) = Returns out /\
               is_signed_png out /\
               stdout env_short_disk
               = firstn (stdout_taken env_short_disk out) out).
Proof.
  assert (Hpng : returns_png is_signed_png env_jpeg)
    by (apply (sample_remove_meets_contract env_jpeg); reflexivity).
  assert (Hpng' : returns_png is_signed_png env_short_disk)
    by (apply (sample_remove_meets_contract env_short_disk); reflexivity).
  split; [exact Hpng|].
  destruct (streams_are_kept_apart is_signed_png env_jpeg Hpng)
    as (_ & _ & _ & Hall).
  split.
  - apply Hall; [discriminate | reflexivity | apply le_n].
  - apply (streams_are_kept_apart is_signed_png env_short_disk Hpng').
Defined.

(** C8, as the claim reads: two runs on the same non-empty image, with a
    capability that meets its contract, both end with exit status 0.  It
    fails when the write raises on one of the runs: here the first run
    writes to a working output stream and the second to a broken pipe.  It
    fails as well when the flush at exit fails on one of the runs. *)
Lemma second_run_may_fail :
  stdin_data env_jpeg = stdin_data env_broken_pipe /\
  is_sample_image (stdin_data env_jpeg) /\
  stdin_data env_jpeg <> [] /\
  meets_contract is_sample_image is_signed_png env_jpeg /\
  meets_contract is_sample_image is_signed_png env_broken_pipe /\
  exit_status env_jpeg = Exited 0 /\
  ~ (exit_status env_broken_pipe = Exited 0 /\
     stdout env_broken_pipe <> [] /\
     is_signed_png (stdout env_broken_pipe)) /\
  exit_status env_broken_pipe = Exited 1 /\
  stdout env_broken_pipe = [] /\
  stdin_data env_jpeg = stdin_data env_full_disk /\
  meets_contract is_sample_image is_signed_png env_full_disk /\
  exit_status env_full_disk = Exited 120 /\
  stdout env_full_disk = [].
Proof.
  split; [reflexivity|].
  split; [reflexivity|].
  split; [discriminate|].
  split; [now apply sample_remove_meets_contract|].
  split; [now apply sample_remove_meets_contract|].
  split; [reflexivity|].
  split; [intros (Hs & _); vm_compute in Hs; discriminate Hs|].
  split; [reflexivity|]. split; [reflexivity|]. split; [reflexivity|].
  split; [now apply sample_remove_meets_contract|].
  split; reflexivity.
Qed.

Lemma two_runs_both_succeed_witness :
  stdin_data env_jpeg = stdin_data env_jpeg_bis /\
  sound_stdout env_jpeg /\
  sound_stdout env_jpeg_bis /\
  (exit_status env_jpeg = Exited 0 /\ stdout env_jpeg <> [] /\
   is_signed_png (stdout env_jpeg)) /\
  (exit_status env_jpeg_bis = Exited 0 /\ stdout env_jpeg_bis <> [] /\
   is_signed_png (stdout env_jpeg_bis)) /\
  stdout env_jpeg <> stdout env_jpeg_bis.
Proof.
  assert (S1 : sound_stdout env_jpeg)
    by (intros out _; split; [reflexivity | apply le_n]).
  assert (S2 : sound_stdout env_jpeg_bis)
    by (intros out _; split; [reflexivity | apply le_n]).
  split; [reflexivity|]. split; [exact S1|]. split; [exact S2|].
  assert (H : (exit_status env_jpeg = Exited 0 /\ stdout env_jpeg <> [] /\
               is_signed_png (stdout env_jpeg)) /\
              (exit_status env_jpeg_bis = Exited 0 /\
               stdout env_jpeg_bis <> [] /\
               is_signed_png (stdout env_jpeg_bis))).
  { apply (two_runs_both_succeed is_sample_image is_signed_png
             is_signed_png_nonempty env_jpeg env_jpeg_bis).
    - reflexivity.
    - reflexivity.
    - discriminate.
    - apply sample_remove_meets_contract. reflexivity.
    - apply sample_remove_bis_meets_contract. reflexivity.
    - exact S1.
    - exact S2. }
  destruct H as [H1 H2].
  split; [exact H1|]. split; [exact H2|].
  intros F. vm_compute in F. discriminate F.
Defined.

(** ** No retry, no second look

    What follows is read off [main] as a whole: how often it turns to each
    of its surroundings, and with which arguments. *)

(** X1.  The removal capability is called exactly once, with the input
    buffer as it was read, when the input holds at least one byte, and not
    at all when it holds none; the emptiness test looks at the length only,
    and a failed call is not repeated. *)
Theorem remove_is_called_once_on_the_input (env : Env) :
  remove_calls (trace (script env))
  = (if not_ (stdin_data env) then [] else [stdin_data env]) /\
  (forall arg r, In (RemoveCall arg r) (trace (script env)) ->
     arg = stdin_data env /\ r = remove env arg /\ stdin_data env <> []).
Proof.
  run_cases env.
  - rewrite Rin. split; [reflexivity|].
    intros arg r F. in_trace F.
  - split; [now apply one_call|]. intros arg r F. the_call F.
  - split; [now apply one_call|]. intros arg r F. the_call F.
  - split; [now apply one_call|]. intros arg r F. the_call F.
  - split; [now apply one_call|]. intros arg r F. the_call F.
  - split; [now apply one_call|]. intros arg r F. the_call F.
  - split; [now apply one_call|]. intros arg r F. the_call F.
Qed.

(** X2.  Every run starts by reading the whole input stream, before any
    call of the capability and before any write, and the stream is read
    only once. *)
Theorem input_is_read_first_and_once (env : Env) :
  exists rest,
    trace (script env) = StdinRead (stdin_data env) :: rest /\
    stdin_reads rest = [].
Proof.
  run_cases env; [rewrite Rin|..]; eexists; split; reflexivity.
Qed.

(** X3.  The write to the output stream is tried exactly once when the
    capability returned a buffer for a non-empty input, with that very
    buffer whatever its length, and it is not tried again after it raised;
    it is not tried at all when the input is empty or the capability
    raised. *)
Theorem write_is_tried_once_with_the_result (env : Env) :
  stdout_attempts (trace (script env))
  = (if not_ (stdin_data env) then []
     else match remove env (stdin_data env) with
          | Returns out => [out]
          | Raises _ => []
          | Exits _ => []
          end).
Proof.
  run_cases env; [rewrite Rin; reflexivity|..];
    rewrite Rrm; unfold not_;
    (destruct (stdin_data env); [now destruct Rin | reflexivity]).
Qed.

(** ** Reading a run from outside *)


(** X5.  A run depends on its surroundings only through the input, through
    what the capability does on that input, and through what the output
    stream does with the returned buffer: two runs that agree there have the
    same trace and the same exit status, whatever the capability or the
    stream would have done on other buffers. *)
Theorem run_depends_on_what_it_touches (env1 env2 : Env) :
  stdin_data env1 = stdin_data env2 ->
  remove env1 (stdin_data env1) = remove env2 (stdin_data env2) ->
  (forall out, remove env1 (stdin_data env1) = Returns out ->
     stdout_write env1 out = stdout_write env2 out) ->
  script env1 = script env2.
Proof.
  intros Hin Hrm Hw.
  pose proof (script_Run env1) as R1.
  pose proof (script_Run env2) as R2.
  destruct R1 as [Rin | rmsg Rin Rrm | rcode Rin Rrm
                 | rout rmsg Rin Rrm Rw | rout rcode Rin Rrm Rw
                 | rout ru Rin Rrm Rw Rfl | rout ru rreport Rin Rrm Rw Rfl];
    try (specialize (Hw _ Rrm); rewrite Hw in Rw);
    try rewrite Hrm in Rrm;
    rewrite Hin in Rin; try rewrite Hin;
    destruct R2 as [Sin | smsg Sin Srm | scode Sin Srm
                   | sout smsg Sin Srm Sw | sout scode Sin Srm Sw
                   | sout su Sin Srm Sw Sfl | sout su sreport Sin Srm Sw Sfl];
    same_call;
    try (rewrite Rfl in Sfl; first [discriminate Sfl | injection Sfl as <-]);
    reflexivity.
Qed.

Lemma run_depends_on_what_it_touches_witness :
  remove env_jpeg not_an_image <> remove env_jpeg_other not_an_image /\
  stdout_write env_jpeg [] <> stdout_write env_jpeg_other [] /\
  script env_jpeg = script env_jpeg_other.
Proof.
  split; [discriminate|]. split; [discriminate|].
  apply (run_depends_on_what_it_touches env_jpeg env_jpeg_other).
  - reflexivity.
  - reflexivity.
  - intros out Hout. injection Hout as <-. reflexivity.
Defined.

(** X6.  A write statement that raised stands, like one that returned,
    after the read of the whole input stream and after a call of the
    removal capability that returned the buffer it was handed; so whatever
    part of a buffer reaches the output stream before a failure does so
    only when the input was not empty and the capability had returned. *)
Theorem failed_write_only_after_success
    (env : Env) (pre post : list event) (data : bytes) (message : string) :
  trace (script env) = pre ++ StdoutWriteFailed data message :: post ->
  In (StdinRead (stdin_data env)) pre /\
  In (RemoveCall (stdin_data env) (Returns data)) pre /\
  stdin_data env <> [] /\
  remove env (stdin_data env) = Returns data.
Proof.
  intros Ht. run_cases env;
    repeat (destruct pre as [|? pre]; cbn in Ht; try discriminate Ht;
            injection Ht as <- Ht);
    try discriminate Ht.
  all: repeat split; cbn; auto.
Qed.

Lemma failed_write_only_after_success_witness :
  trace (script env_broken_pipe)
    = [StdinRead sample_jpeg; RemoveCall sample_jpeg (Returns sample_png)]
      ++ StdoutWriteFailed sample_png "[Errno 32] Broken pipe"
      :: [StderrWrite ("Error: [Errno 32] Broken pipe" ++ LF)] /\
  stdin_data env_broken_pipe <> [] /\
  remove env_broken_pipe (stdin_data env_broken_pipe) = Returns sample_png.
Proof.
  assert (Ht : trace (script env_broken_pipe)
               = [StdinRead sample_jpeg;
                  RemoveCall sample_jpeg (Returns sample_png)]
                 ++ StdoutWriteFailed sample_png "[Errno 32] Broken pipe"
                 :: [StderrWrite ("Error: [Errno 32] Broken pipe" ++ LF)])
    by reflexivity.
  destruct (failed_write_only_after_success env_broken_pipe _ _ _ _ Ht)
    as (_ & _ & Hin & Hrm).
  repeat split; assumption.
Defined.
